(** * generate_models.py: the ONNX style-transfer graph builder

    A shallow embedding of [image-style-transfer-nextjs/generate_models.py]
    and the properties of its specification.

    The script builds, for a style name, a short chain of ONNX nodes chosen
    by substring tests on the name, hands the graph to the onnx library and
    writes the serialized model under [public/models].

    Modelling choices.
    - Python [str] is [string]; the script only handles ASCII text, and
      [lower] leaves every non-ASCII byte as it is.
    - The protobuf messages built by [onnx.helper] are records.
      [helper.make_node] stores every keyword argument of the call as an
      attribute of the node, named after the keyword, in the order of the
      sorted keywords ([make_attribute]): a float becomes a FLOAT attribute,
      a dict is iterated, which yields its keys, and becomes a STRINGS
      attribute. So [attrs={'value': array}] becomes the attribute [attrs]
      with the strings ['value'], and the array is not stored.
    - A float literal is the rational it denotes ([1.4] is [1.4%Q]); numpy's
      rounding to float32 is not modelled, the dtype is kept as a tag.
    - [helper.make_model], [shape_inference.infer_shapes] and
      [SerializeToString] belong to the onnx library: they are the fields
      of the class [OnnxLibrary], functions that return a value or raise
      an [Exception]; every result holds for any such library.
    - The world is the file contents by path plus the lines printed so far.
      Directories are not tracked: [os.makedirs] and [open] succeed. *)

From Stdlib Require Import ZArith QArith String Ascii List Bool Lia.
From Stdlib Require Import Strings.Byte.
From stdpp Require Import base option list strings gmap.

Open Scope string_scope.

(** ** Python string primitives *)

Module Py.

(** [s.startswith(pre)] *)
Fixpoint startswith (pre s : string) : bool :=
  match pre, s with
  | "", _ => true
  | String _ _, "" => false
  | String a p, String b r => Ascii.eqb a b && startswith p r
  end.

(** [sub in s] for two strings: [sub] occurs at some position of [s]. *)
Fixpoint contains (sub s : string) : bool :=
  startswith sub s ||
  match s with
  | "" => false
  | String _ r => contains sub r
  end.

Definition lower_ascii (c : ascii) : ascii :=
  let n := N_of_ascii c in
  if ((65 <=? n) && (n <=? 90))%N then ascii_of_N (n + 32) else c.

(** [s.lower()] *)
Fixpoint lower (s : string) : string :=
  match s with
  | "" => ""
  | String c r => String (lower_ascii c) (lower r)
  end.

(** Left-to-right scan of [s.replace(old, new)] for a non-empty [old];
    [skip] counts the characters of a match still to be dropped. *)
Fixpoint replace_from (old new : string) (skip : nat) (s : string) : string :=
  match s with
  | "" => ""
  | String c r =>
      match skip with
      | S k => replace_from old new k r
      | O =>
          if startswith old s
          then new +:+ replace_from old new (String.length old - 1) r
          else String c (replace_from old new 0 r)
      end
  end.

(** What Python does for [old = ""]: [new] before every character and at
    the end. *)
Fixpoint replace_empty (new s : string) : string :=
  match s with
  | "" => new
  | String c r => new +:+ String c (replace_empty new r)
  end.

(** [s.replace(old, new)] *)
Definition replace (old new s : string) : string :=
  match old with
  | "" => replace_empty new s
  | String _ _ => replace_from old new 0 s
  end.

Fixpoint endswith_char (c : ascii) (s : string) : bool :=
  match s with
  | "" => false
  | String a "" => Ascii.eqb a c
  | String _ r => endswith_char c r
  end.

(** [os.path.join(a, b)] of posixpath. *)
Definition os_path_join (a b : string) : string :=
  if startswith "/" b then b
  else if String.eqb a "" || endswith_char "/" a then a +:+ b
  else a +:+ "/" +:+ b.

End Py.

(** ** The protobuf messages of [onnx.helper] *)

Module Onnx.

(** [onnx.TensorProto.FLOAT] is the only element type of the script. *)
Inductive DataType : Set := FLOAT.

Record ValueInfoProto : Type := make_tensor_value_info {
  vi_name : string;
  elem_type : DataType;
  shape : list Z
}.

Inductive np_dtype : Set := float32.

(** The first argument of [np.array]: one float or a list of floats. *)
Inductive np_data : Type :=
| Scalar (x : Q)
| Vector (xs : list Q).

Record ndarray : Type := np_array {
  data : np_data;
  dtype : np_dtype
}.

(** A keyword argument of [make_node]: a float ([min=0.0]) or a dict from
    names to arrays ([attrs={'value': ...}]). *)
Inductive kwarg : Type :=
| KwFloat (x : Q)
| KwDict (items : list (string * ndarray)).

(** What an attribute holds: one float (type FLOAT) or a list of strings
    (type STRINGS). *)
Inductive attr_payload : Type :=
| AttrFloat (f : Q)
| AttrStrings (strings : list string).

Record AttributeProto : Type := {
  attr_name : string;
  payload : attr_payload
}.

(** [helper.make_attribute(key, value)] for the two kinds of value the
    script passes. A float is stored as it is. A dict is an iterable of
    its keys: the keys are stored as strings and the values are dropped.
    (For an empty dict, which the script never passes, the library raises;
    that case is not modelled.) *)
Definition make_attribute (key : string) (value : kwarg) : AttributeProto :=
  match value with
  | KwFloat x => {| attr_name := key; payload := AttrFloat x |}
  | KwDict items => {| attr_name := key; payload := AttrStrings (map fst items) |}
  end.

Fixpoint insert_by_key {V : Type} (kv : string * V) (l : list (string * V))
  : list (string * V) :=
  match l with
  | [] => [kv]
  | x :: r =>
      if String.leb (fst kv) (fst x) then kv :: l
      else x :: insert_by_key kv r
  end.

(** [sorted(kwargs.items())]: the keywords of a call are distinct, so the
    order is the order of the keys. *)
Definition sorted_items {V : Type} (kwargs : list (string * V))
  : list (string * V) :=
  fold_right insert_by_key [] kwargs.

Record NodeProto : Type := {
  op_type : string;
  input : list string;
  output : list string;
  name : string;
  attribute : list AttributeProto
}.

(** [helper.make_node(op_type, inputs, outputs, name=name, **kwargs)] *)
Definition make_node (op : string) (inputs outputs : list string)
  (node_name : string) (kwargs : list (string * kwarg)) : NodeProto :=
  {| op_type := op;
     input := inputs;
     output := outputs;
     name := node_name;
     attribute :=
       map (fun kv => make_attribute (fst kv) (snd kv)) (sorted_items kwargs) |}.

Record GraphProto : Type := make_graph {
  node : list NodeProto;
  graph_name : string;
  graph_input : list ValueInfoProto;
  graph_output : list ValueInfoProto
}.

End Onnx.

Import Py Onnx.

(** ** create_style_transfer_model, up to [helper.make_graph] *)

(** [nodes.append(x)] *)
Definition append {A : Type} (nodes : list A) (x : A) : list A := nodes ++ [x].

(** [attrs={'value': a}] *)
Definition attrs_value (a : ndarray) : list (string * kwarg) :=
  [("attrs", KwDict [("value", a)])].

Definition norm_node : NodeProto :=
  make_node "Div" ["input"] ["normalized"] "normalize" [].

(** The [if]/[elif]/[else] chain of lines 42 to 151. *)
Definition style_branch (style_name : string) (nodes : list NodeProto)
  : list NodeProto :=
  if contains "Van Gogh" style_name then
    let color_scale :=
      make_node "Mul" ["normalized"] ["colored"] "color_enhance"
        (attrs_value (np_array (Vector [1.4; 1.2; 1.1]%Q) float32)) in
    let nodes := append nodes color_scale in
    let add_node :=
      make_node "Add" ["colored"] ["styled"] "add_effects"
        (attrs_value (np_array (Scalar 0.1%Q) float32)) in
    append nodes add_node
  else if contains "Picasso" style_name then
    let contrast_node :=
      make_node "Mul" ["normalized"] ["contrast"] "contrast"
        (attrs_value (np_array (Scalar 1.5%Q) float32)) in
    let nodes := append nodes contrast_node in
    let add_node :=
      make_node "Add" ["contrast"] ["styled"] "add_geometric"
        (attrs_value (np_array (Scalar 0.2%Q) float32)) in
    append nodes add_node
  else if contains "Cyberpunk" style_name then
    let neon_scale :=
      make_node "Mul" ["normalized"] ["neon"] "neon_scale"
        (attrs_value (np_array (Vector [1.3; 0.8; 1.5]%Q) float32)) in
    let nodes := append nodes neon_scale in
    let add_node :=
      make_node "Add" ["neon"] ["styled"] "add_glow"
        (attrs_value (np_array (Scalar 0.2%Q) float32)) in
    append nodes add_node
  else if contains "Monet" style_name then
    let soft_node :=
      make_node "Mul" ["normalized"] ["soft"] "soft_scale"
        (attrs_value (np_array (Scalar 1.1%Q) float32)) in
    let nodes := append nodes soft_node in
    let add_node :=
      make_node "Add" ["soft"] ["styled"] "add_impressionist"
        (attrs_value (np_array (Scalar 0.05%Q) float32)) in
    append nodes add_node
  else if contains "Anime" style_name then
    let saturate_node :=
      make_node "Mul" ["normalized"] ["saturated"] "saturate"
        (attrs_value (np_array (Scalar 1.3%Q) float32)) in
    let nodes := append nodes saturate_node in
    let add_node :=
      make_node "Add" ["saturated"] ["styled"] "add_anime"
        (attrs_value (np_array (Scalar 0.1%Q) float32)) in
    append nodes add_node
  else
    let identity_node :=
      make_node "Identity" ["normalized"] ["styled"] "identity" [] in
    append nodes identity_node.

Definition clamp_node : NodeProto :=
  make_node "Clip" ["styled"] ["clamped"] "clamp"
    [("min", KwFloat 0.0%Q); ("max", KwFloat 1.0%Q)].

Definition denorm_node : NodeProto :=
  make_node "Mul" ["clamped"] ["output"] "denormalize"
    (attrs_value (np_array (Scalar 255.0%Q) float32)).

(** Lines 16 to 180: the graph handed to [helper.make_model]. *)
Definition build_graph (style_name : string) : GraphProto :=
  let input_shape := [1; 3; 256; 256]%Z in
  let output_shape := [1; 3; 256; 256]%Z in
  let input_tensor := make_tensor_value_info "input" FLOAT input_shape in
  let output_tensor := make_tensor_value_info "output" FLOAT output_shape in
  let nodes := [] in
  let nodes := append nodes norm_node in
  let nodes := style_branch style_name nodes in
  let nodes := append nodes clamp_node in
  let nodes := append nodes denorm_node in
  make_graph nodes (style_name +:+ "_style_transfer")
    [input_tensor] [output_tensor].

(** ** The world of the script, and the onnx library *)

(** An exception is carried as its message, [str(e)]. *)
Definition Exception : Type := string.

Record World : Type := {
  files : gmap string (list byte);
  stdout : list string
}.

(** A statement either returns or raises, and changes the world. *)
Definition IO (A : Type) : Type := World -> (Exception + A) * World.

#[global] Instance IO_ret : MRet IO := fun A x w => (inr x, w).

#[global] Instance IO_bind : MBind IO := fun A B k m w =>
  match m w with
  | (inl e, w') => (inl e, w')
  | (inr x, w') => k x w'
  end.

(** A library call: its result, the world untouched. *)
Definition lift {A : Type} (r : Exception + A) : IO A := fun w => (r, w).

(** [print(line)] *)
Definition print (line : string) : IO unit := fun w =>
  (inr tt, {| files := files w; stdout := stdout w ++ [line] |}).

(** [open(path, 'wb')]: the file is created, or emptied when it exists.
    The handle is the path. *)
Definition open_wb (path : string) : IO string := fun w =>
  (inr path, {| files := <[path := []]> (files w); stdout := stdout w |}).

(** [f.write(b)] *)
Definition write (f : string) (b : list byte) : IO unit := fun w =>
  (inr tt, {| files := <[f := (default [] (files w !! f) ++ b)%list]> (files w);
              stdout := stdout w |}).

(** [try: body except Exception as e: handler(e)] *)
Definition try_except {A : Type} (body : IO A) (handler : Exception -> IO A)
  : IO A := fun w =>
  match body w with
  | (inl e, w') => handler e w'
  | (inr x, w') => (inr x, w')
  end.

(** [for x in l: body(x)] *)
Fixpoint for_each {A : Type} (l : list A) (body : A -> IO unit) : IO unit :=
  match l with
  | [] => mret tt
  | x :: r => body x ;; for_each r body
  end.

(** The three calls into the onnx library after the graph is built. *)
Class OnnxLibrary : Type := {
  ModelProto : Type;
  make_model : GraphProto -> Exception + ModelProto;
  infer_shapes : ModelProto -> Exception + ModelProto;
  SerializeToString : ModelProto -> Exception + list byte
}.

(** ** create_style_transfer_model and main *)

Section Generator.
Context {onnx : OnnxLibrary}.

Definition create_style_transfer_model (style_name output_path : string)
  : IO unit :=
  let graph := build_graph style_name in
  model ← lift (make_model graph);
  model ← lift (infer_shapes model);
  f ← open_wb output_path;
  bytes ← lift (SerializeToString model);
  write f bytes;;
  print ("Created ONNX model: " +:+ output_path).

Definition models_dir : string := "public/models".

Definition styles : list string :=
  [ "Van Gogh - Starry Night";
    "Picasso - Cubist";
    "Cyberpunk Neon";
    "Monet - Water Lilies";
    "Anime Studio Ghibli" ].

(** Line 213. *)
Definition filename (style : string) : string :=
  replace " " "_" (replace " - " "_" (lower style)) +:+ ".onnx".

(** Line 214. *)
Definition output_path (style : string) : string :=
  os_path_join models_dir (filename style).

(** The body of the loop of [main]. *)
Definition main_body (style : string) : IO unit :=
  try_except
    (create_style_transfer_model style (output_path style))
    (fun e => print ("Failed to create model for " +:+ style +:+ ": " +:+ e)).

Definition main : IO unit :=
  for_each styles main_body;;
  print "Model generation complete!".

(** What the library makes of the graph of a style: the bytes to write, or
    the exception of the first call that raises. *)
Definition pipeline (style_name : string) : Exception + list byte :=
  match make_model (build_graph style_name) with
  | inl e => inl e
  | inr model =>
      match infer_shapes model with
      | inl e => inl e
      | inr model => SerializeToString model
      end
  end.

(** The line printed for a style. *)
Definition report (style : string) : string :=
  match pipeline style with
  | inr _ => "Created ONNX model: " +:+ output_path style
  | inl e => "Failed to create model for " +:+ style +:+ ": " +:+ e
  end.

(** The file at the path of a style after its turn, from the file before:
    untouched when [make_model] or [infer_shapes] raises, left empty when
    [SerializeToString] raises, the bytes otherwise. *)
Definition file_after (style_name : string) (old : option (list byte))
  : option (list byte) :=
  match make_model (build_graph style_name) with
  | inl _ => old
  | inr model =>
      match infer_shapes model with
      | inl _ => old
      | inr model =>
          match SerializeToString model with
          | inl _ => Some []
          | inr bytes => Some bytes
          end
      end
  end.

End Generator.

(** ** The specification's view of the style dispatch *)

(** The five known substrings in the order of the specification, each with
    its scale operand and its offset. *)
Definition known_styles : list (string * (np_data * Q)) :=
  [ ("Van Gogh", (Vector [1.4; 1.2; 1.1]%Q, 0.1%Q));
    ("Picasso", (Scalar 1.5%Q, 0.2%Q));
    ("Cyberpunk", (Vector [1.3; 0.8; 1.5]%Q, 0.2%Q));
    ("Monet", (Scalar 1.1%Q, 0.05%Q));
    ("Anime", (Scalar 1.3%Q, 0.1%Q)) ].

Definition known_names : list string := map fst known_styles.

(** First match wins. *)
Definition spec_select (style_name : string)
  : option (string * (np_data * Q)) :=
  List.find (fun e => contains (fst e) style_name) known_styles.

(** The slug of the specification: lower-cased, [" - "] replaced by ["_"],
    the remaining spaces replaced by ["_"]. *)
Definition spec_slug (style : string) : string :=
  let lowered := lower style in
  let no_dash := replace " - " "_" lowered in
  replace " " "_" no_dash.


(** The numbers a node carries: the floats among its attributes. *)
Fixpoint attr_floats (l : list AttributeProto) : list Q :=
  match l with
  | [] => []
  | a :: r =>
      match payload a with
      | AttrFloat f => f :: attr_floats r
      | AttrStrings _ => attr_floats r
      end
  end.

(** The one attribute that [attrs={'value': ...}] leaves on a node. *)
Definition attrs_strings : AttributeProto :=
  {| attr_name := "attrs"; payload := AttrStrings ["value"] |}.

Definition identity_node : NodeProto :=
  make_node "Identity" ["normalized"] ["styled"] "identity" [].

(** [chain a ns b]: the nodes [ns] thread the name [a] to the name [b], each
    reading the one name its predecessor writes. *)
Inductive chain : string -> list NodeProto -> string -> Prop :=
| chain_nil (a : string) : chain a [] a
| chain_cons (a b c : string) (n : NodeProto) (ns : list NodeProto) :
    input n = [a] -> output n = [b] -> chain b ns c -> chain a (n :: ns) c.

(** A graph that is one chain from its declared input to its declared
    output: every name is written once (no cycle) and read once (no
    branching). *)
Definition linear_chain (g : GraphProto) : Prop :=
  exists i o : string,
    map vi_name (graph_input g) = [i] /\
    map vi_name (graph_output g) = [o] /\
    chain i (node g) o /\
    NoDup (i :: concat (map output (node g))) /\
    NoDup (concat (map input (node g))).

(** A stand-in for the onnx library, to run the generator on concrete
    inputs: the model is the graph, its bytes are the graph's name. *)
Definition name_only_onnx : OnnxLibrary := {|
  ModelProto := GraphProto;
  make_model := inr;
  infer_shapes := inr;
  SerializeToString := fun g => inr (list_byte_of_string (graph_name g))
|}.

(** A library whose shape inference rejects every graph with an [Add]
    node and whose serializer rejects a graph named after Monet. *)
Definition picky_onnx : OnnxLibrary := {|
  ModelProto := GraphProto;
  make_model := inr;
  infer_shapes := fun g =>
    if existsb (fun n => String.eqb (op_type n) "Add") (node g)
    then if contains "Cyberpunk" (graph_name g) then inr g
         else if contains "Monet" (graph_name g) then inr g
         else inl "bad node"
    else inr g;
  SerializeToString := fun g =>
    if contains "Monet" (graph_name g) then inl "cannot serialize"
    else inr (list_byte_of_string (graph_name g))
|}.

Definition empty_world : World := {| files := ∅; stdout := [] |}.

(** A world left by an earlier run: one model file, one unrelated file,
    one printed line. *)
Definition used_world : World := {|
  files := <["public/models/monet_water_lilies.onnx" := [x01; x02] ]>
             (<["notes.txt" := [x41] ]> ∅);
  stdout := ["Model generation complete!"]
|}.

(** * Properties *)

Example contains_ex1 : contains "Picasso" "Picasso - Cubist" = true.
Proof. reflexivity. Qed.

Example contains_ex2 : contains "Van Gogh" "van gogh starry night" = false.
Proof. reflexivity. Qed.

Example replace_ex1 :
  replace " " "_" (replace " - " "_" (lower "Van Gogh - Starry Night"))
  = "van_gogh_starry_night".
Proof. reflexivity. Qed.

Example replace_ex2 : replace "" "-" "abc" = "-a-b-c-".
Proof. reflexivity. Qed.

Example replace_ex3 : replace "aa" "b" "aaaaa" = "bba".
Proof. reflexivity. Qed.

Example build_graph_ex1 :
  map name (node (build_graph "Picasso - Cubist"))
  = ["normalize"; "contrast"; "add_geometric"; "clamp"; "denormalize"].
Proof. reflexivity. Qed.

Example make_node_ex1 :
  attribute clamp_node
  = [ {| attr_name := "max"; payload := AttrFloat 1.0%Q |};
      {| attr_name := "min"; payload := AttrFloat 0.0%Q |} ].
Proof. reflexivity. Qed.

Example make_node_ex2 :
  denorm_node
  = {| op_type := "Mul"; input := ["clamped"]; output := ["output"];
       name := "denormalize"; attribute := [attrs_strings] |}.
Proof. reflexivity. Qed.

Example style_branch_ex1 :
  style_branch "Picasso - Cubist" []
  = [ {| op_type := "Mul"; input := ["normalized"]; output := ["contrast"];
         name := "contrast"; attribute := [attrs_strings] |};
      {| op_type := "Add"; input := ["contrast"]; output := ["styled"];
         name := "add_geometric"; attribute := [attrs_strings] |} ].
Proof. reflexivity. Qed.

Example main_ex1 :
  stdout (snd (main (onnx := picky_onnx) empty_world))
  = [ "Failed to create model for Van Gogh - Starry Night: bad node";
      "Failed to create model for Picasso - Cubist: bad node";
      "Created ONNX model: public/models/cyberpunk_neon.onnx";
      "Failed to create model for Monet - Water Lilies: cannot serialize";
      "Failed to create model for Anime Studio Ghibli: bad node";
      "Model generation complete!" ].
Proof. vm_compute. reflexivity. Qed.

Example main_ex2 :
  files (snd (main (onnx := picky_onnx) empty_world))
    !! "public/models/monet_water_lilies.onnx" = Some [].
Proof. vm_compute. reflexivity. Qed.

(** ** Substring tests *)

Lemma startswith_spec (pre s : string) :
  startswith pre s = true <-> exists post, s = pre +:+ post.
Proof.
  revert s. induction pre as [|a p IH]; intros s; simpl.
  - split; [intros _; exists s; reflexivity | reflexivity].
  - destruct s as [|b r].
    + split; [discriminate | intros [post Hp]; discriminate].
    + rewrite andb_true_iff, Ascii.eqb_eq, IH. split.
      * intros [-> [post ->]]. exists post. reflexivity.
      * intros [post Hp]. injection Hp as -> ->. split; [reflexivity | eauto].
Qed.

(** [contains] is Python's [in]: the needle sits between two strings. *)
Lemma contains_spec (sub s : string) :
  contains sub s = true <-> exists pre post, s = pre +:+ sub +:+ post.
Proof.
  induction s as [|c r IH].
  - simpl. rewrite orb_false_r, startswith_spec. split.
    + intros [post Hp]. exists "", post. exact Hp.
    + intros [pre [post Hp]]. destruct pre; [eauto | discriminate].
  - cbn [contains]. rewrite orb_true_iff, startswith_spec, IH. split.
    + intros [[post Hp] | [pre [post Hp]]].
      * exists "", post. exact Hp.
      * exists (String c pre), post. simpl. rewrite Hp. reflexivity.
    + intros [pre [post Hp]]. destruct pre as [|c' pre].
      * left. exists post. exact Hp.
      * right. simpl in Hp. injection Hp as _ Hr. eauto.
Qed.

(** ** The dispatch *)

Ltac dispatch s :=
  destruct (contains "Van Gogh" s) eqn:?;
  [| destruct (contains "Picasso" s) eqn:?;
     [| destruct (contains "Cyberpunk" s) eqn:?;
        [| destruct (contains "Monet" s) eqn:?;
           [| destruct (contains "Anime" s) eqn:? ]]]].

(** The branch only appends to the list it is given. *)
Lemma style_branch_app (s : string) (nodes : list NodeProto) :
  style_branch s nodes = (nodes ++ style_branch s [])%list.
Proof.
  unfold style_branch, append. dispatch s; cbn zeta;
    rewrite <- ?app_assoc; reflexivity.
Qed.

Lemma build_graph_nodes (s : string) :
  node (build_graph s)
  = (norm_node :: style_branch s [] ++ [clamp_node; denorm_node])%list.
Proof.
  unfold build_graph. cbn [node]. rewrite style_branch_app.
  unfold append. simpl. rewrite <- !app_assoc. reflexivity.
Qed.

Lemma no_match_all_false (s : string) :
  Forall (fun k => contains k s = false) known_names ->
  contains "Van Gogh" s = false /\ contains "Picasso" s = false /\
  contains "Cyberpunk" s = false /\ contains "Monet" s = false /\
  contains "Anime" s = false.
Proof.
  unfold known_names, known_styles. cbn [map fst]. intros HF.
  repeat match goal with
         | HF : Forall _ (_ :: _) |- _ => apply Forall_cons_1 in HF as [? HF]
         end.
  auto.
Qed.

Lemma no_match_identity (s : string) :
  Forall (fun k => contains k s = false) known_names ->
  style_branch s [] = [identity_node].
Proof.
  intros HF. apply no_match_all_false in HF as (H1 & H2 & H3 & H4 & H5).
  unfold style_branch. rewrite H1, H2, H3, H4, H5. reflexivity.
Qed.

(** The array under ['value'] plays no part in the node that [make_node]
    builds. *)
Lemma make_node_drops_array (op : string) (inputs outputs : list string)
  (node_name : string) (a b : ndarray) :
  make_node op inputs outputs node_name (attrs_value a)
  = make_node op inputs outputs node_name (attrs_value b).
Proof. reflexivity. Qed.

(** C1. For every style name the branch is the one of the first of "Van
    Gogh", "Picasso", "Cyberpunk", "Monet", "Anime" that the name contains,
    and that branch appends exactly one Mul node and one Add node, in this
    order, each built by a call that passes the scale or the offset of the
    specification's table as [attrs={'value': ...}]. The constants do not
    reach the nodes: each of the two carries the single attribute [attrs]
    with the strings ['value'], and no number. With no match the branch
    appends the identity node. *)
Theorem C1_constants_do_not_reach_the_nodes (style_name : string) :
  match spec_select style_name with
  | Some (_, (scale, offset)) =>
      exists (mul add : NodeProto) (mid nm1 nm2 : string),
        (forall nodes, style_branch style_name nodes = nodes ++ [mul; add])%list /\
        node (build_graph style_name)
          = [norm_node; mul; add; clamp_node; denorm_node] /\
        mul = make_node "Mul" ["normalized"] [mid] nm1
                (attrs_value (np_array scale float32)) /\
        add = make_node "Add" [mid] ["styled"] nm2
                (attrs_value (np_array (Scalar offset) float32)) /\
        attribute mul = [attrs_strings] /\ attr_floats (attribute mul) = [] /\
        attribute add = [attrs_strings] /\ attr_floats (attribute add) = []
  | None =>
      (forall nodes, style_branch style_name nodes = nodes ++ [identity_node])%list
  end.
Proof.
  unfold spec_select, known_styles. cbn [List.find fst].
  pose proof (eq_refl (style_branch style_name [])) as Hb.
  unfold style_branch at 2 in Hb. unfold append in Hb.
  dispatch style_name; cbn zeta in Hb; simpl app in Hb;
    try (eexists; eexists; eexists; eexists; eexists; split;
         [intros nodes; rewrite style_branch_app, Hb; reflexivity
         |split; [rewrite build_graph_nodes, Hb; reflexivity
                 |repeat split; reflexivity]]).
  intros nodes. rewrite style_branch_app, Hb. reflexivity.
Qed.

(** C3. A style name that contains none of the five known substrings gets
    the identity node where the others get a Mul and an Add: its graph has
    the four nodes normalize, identity, clamp, denormalize, in this order. *)
Theorem C3_unmatched_style_gets_identity (style_name : string) :
  Forall (fun k => contains k style_name = false) known_names ->
  node (build_graph style_name)
    = [norm_node; identity_node; clamp_node; denorm_node] /\
  map name (node (build_graph style_name))
    = ["normalize"; "identity"; "clamp"; "denormalize"] /\
  length (node (build_graph style_name)) = 4 /\
  op_type identity_node = "Identity" /\
  attribute identity_node = [].
Proof.
  intros HF. rewrite build_graph_nodes, (no_match_identity _ HF).
  repeat split; reflexivity.
Qed.

Lemma C3_unmatched_style_gets_identity_witness :
  Forall (fun k => contains k "Unknown Style" = false) known_names /\
  node (build_graph "Unknown Style")
    = [norm_node; identity_node; clamp_node; denorm_node].
Proof.
  assert (HF : Forall (fun k => contains k "Unknown Style" = false) known_names)
    by (repeat constructor).
  split; [exact HF |].
  exact (proj1 (C3_unmatched_style_gets_identity "Unknown Style" HF)).
Defined.

(** C5. Whatever the style name, the graph declares one input and one
    output tensor, both of shape [1, 3, 256, 256]. *)
Theorem C5_declared_shapes_are_fixed (style_name : string) :
  map shape (graph_input (build_graph style_name)) = [[1; 3; 256; 256]%Z] /\
  map shape (graph_output (build_graph style_name)) = [[1; 3; 256; 256]%Z].
Proof. split; reflexivity. Qed.

(** C6. Whatever the style name, the nodes form one chain: the first node
    reads the declared input of the graph, every other node reads exactly
    the name its predecessor writes, the last writes the declared output;
    no name is written twice and none is read twice. *)
Theorem C6_nodes_form_a_linear_chain (style_name : string) :
  linear_chain (build_graph style_name).
Proof.
  pose proof (build_graph_nodes style_name) as Hn.
  unfold style_branch, append in Hn.
  exists "input", "output".
  split; [reflexivity |]. split; [reflexivity |].
  dispatch style_name; cbn zeta in Hn; simpl app in Hn; rewrite Hn;
    (split; [repeat (eapply chain_cons; [reflexivity | reflexivity |]);
             apply chain_nil
            |split; apply (bool_decide_unpack _); vm_compute; exact I]).
Qed.

(** C8. Whatever the style name, the first node of the graph is named
    normalize and no other node is; it is a Div that reads the single name
    'input' and writes 'normalized', and it has no attribute: no divisor,
    255 or other, is attached to it. *)
Theorem C8_normalize_carries_no_divisor (style_name : string) :
  exists (n : NodeProto) (rest : list NodeProto),
    node (build_graph style_name) = n :: rest /\
    name n = "normalize" /\
    op_type n = "Div" /\
    input n = ["input"] /\
    output n = ["normalized"] /\
    attribute n = [] /\
    Forall (fun m => name m <> "normalize") rest.
Proof.
  pose proof (build_graph_nodes style_name) as Hn.
  exists norm_node, (style_branch style_name [] ++ [clamp_node; denorm_node])%list.
  split; [exact Hn |].
  do 5 (split; [reflexivity |]).
  unfold style_branch, append.
  dispatch style_name; cbn zeta; simpl app;
    repeat (constructor; [discriminate |]); constructor.
Qed.

(** C10. The substring tests compare letters exactly. A style name that
    contains a known name only in another letter case, that is with the
    case folded but not as written, matches no branch: its graph is the
    four-node identity graph, with no Add node and no Mul node other than
    denormalize. *)
Theorem C10_dispatch_is_case_sensitive (style_name : string) :
  (exists k, In k known_names /\ contains (lower k) (lower style_name) = true) ->
  Forall (fun k => contains k style_name = false) known_names ->
  spec_select style_name = None /\
  node (build_graph style_name)
    = [norm_node; identity_node; clamp_node; denorm_node] /\
  Forall (fun n => op_type n <> "Add" /\ (op_type n = "Mul" -> n = denorm_node))
    (node (build_graph style_name)).
Proof.
  intros _ HF.
  rewrite build_graph_nodes, (no_match_identity _ HF).
  apply no_match_all_false in HF as (H1 & H2 & H3 & H4 & H5).
  split.
  - unfold spec_select, known_styles. cbn [List.find fst].
    rewrite H1, H2, H3, H4, H5. reflexivity.
  - split; [reflexivity |].
    repeat constructor; try discriminate; reflexivity.
Qed.

Lemma C10_dispatch_is_case_sensitive_witness :
  (exists k, In k known_names /\
             contains (lower k) (lower "van gogh starry night") = true) /\
  Forall (fun k => contains k "van gogh starry night" = false) known_names /\
  node (build_graph "van gogh starry night")
    = [norm_node; identity_node; clamp_node; denorm_node].
Proof.
  assert (HE : exists k, In k known_names /\
                 contains (lower k) (lower "van gogh starry night") = true)
    by (exists "Van Gogh"; split; [left; reflexivity | reflexivity]).
  assert (HF : Forall (fun k => contains k "van gogh starry night" = false)
                 known_names) by (repeat constructor).
  split; [exact HE |]. split; [exact HF |].
  exact (proj1 (proj2
    (C10_dispatch_is_case_sensitive "van gogh starry night" HE HF))).
Defined.

(** ** Runs of the generator *)

Section Runs.
Context {onnx : OnnxLibrary}.

(** One call of the builder, stage by stage. *)
Lemma create_style_transfer_model_run (s path : string) (w : World) :
  create_style_transfer_model s path w =
  match make_model (build_graph s) with
  | inl e => (inl e, w)
  | inr m =>
      match infer_shapes m with
      | inl e => (inl e, w)
      | inr m' =>
          match SerializeToString m' with
          | inl e =>
              (inl e, {| files := <[path := []]> (files w);
                         stdout := stdout w |})
          | inr b =>
              (inr tt, {| files := <[path := b]> (files w);
                          stdout := stdout w ++ ["Created ONNX model: " +:+ path] |})
          end
      end
  end.
Proof.
  unfold create_style_transfer_model, mbind, IO_bind, lift, open_wb, write, print.
  destruct (make_model (build_graph s)) as [e | m]; [reflexivity |].
  destruct (infer_shapes m) as [e | m']; [reflexivity |].
  cbn [files stdout].
  destruct (SerializeToString m') as [e | b]; [reflexivity |].
  cbn [files stdout].
  rewrite lookup_insert_eq, insert_insert_eq. reflexivity.
Qed.

(** The outcome of the builder is the outcome of the library. *)
Lemma create_style_transfer_model_outcome (s path : string) (w : World) :
  fst (create_style_transfer_model s path w)
  = match pipeline s with inl e => inl e | inr _ => inr tt end.
Proof.
  rewrite create_style_transfer_model_run. unfold pipeline.
  destruct (make_model (build_graph s)) as [e | m]; [reflexivity |].
  destruct (infer_shapes m) as [e | m']; [reflexivity |].
  destruct (SerializeToString m'); reflexivity.
Qed.

(** One turn of the loop: it never raises, prints one line, and touches
    at most the file of its style. *)
Lemma main_body_run (s : string) (w : World) :
  fst (main_body s w) = inr tt /\
  stdout (snd (main_body s w)) = (stdout w ++ [report s])%list /\
  files (snd (main_body s w)) !! output_path s
    = file_after s (files w !! output_path s) /\
  forall q : string, q <> output_path s ->
    files (snd (main_body s w)) !! q = files w !! q.
Proof.
  unfold main_body, try_except, report, pipeline, file_after.
  rewrite create_style_transfer_model_run.
  destruct (make_model (build_graph s)) as [e | m];
    [cbn; repeat split; reflexivity |].
  destruct (infer_shapes m) as [e | m'];
    [cbn; repeat split; reflexivity |].
  destruct (SerializeToString m') as [e | b]; cbn;
    (split; [reflexivity |]; split; [reflexivity |];
     split; [apply lookup_insert_eq |];
     intros q Hq; apply lookup_insert_ne; congruence).
Qed.

(** The loop over any list of styles. *)
Lemma for_each_main_body_run (l : list string) (w : World) :
  fst (for_each l main_body w) = inr tt /\
  stdout (snd (for_each l main_body w)) = (stdout w ++ map report l)%list /\
  (forall q : string, ~ In q (map output_path l) ->
     files (snd (for_each l main_body w)) !! q = files w !! q) /\
  (NoDup (map output_path l) ->
   forall s : string, In s l ->
     files (snd (for_each l main_body w)) !! output_path s
     = file_after s (files w !! output_path s)).
Proof.
  revert w. induction l as [|a l IH]; intros w.
  - cbn. rewrite app_nil_r. repeat split; try reflexivity. intros _ s [].
  - cbn [for_each]. unfold mbind, IO_bind.
    destruct (main_body_run a w) as (Hr & Hout & Hown & Hother).
    destruct (main_body a w) as [[e | []] w1]; cbn in Hr, Hout, Hown, Hother;
      [discriminate Hr |].
    destruct (IH w1) as (IHr & IHout & IHother & IHown).
    split; [exact IHr |]. split.
    + rewrite IHout, Hout, <- app_assoc. reflexivity.
    + split.
      * intros q Hq. cbn in Hq. rewrite IHother by tauto.
        apply Hother. intros ->. tauto.
      * intros Hnd s Hs. cbn in Hnd. apply NoDup_cons in Hnd as [Hnotin Hnd].
        rewrite list_elem_of_In in Hnotin.
        destruct Hs as [<- | Hs].
        -- rewrite IHother by exact Hnotin. exact Hown.
        -- rewrite (IHown Hnd s Hs). f_equal. apply Hother.
           intros Heq. apply Hnotin. rewrite <- Heq. apply in_map. exact Hs.
Qed.

Lemma output_paths :
  map output_path styles
  = [ "public/models/van_gogh_starry_night.onnx";
      "public/models/picasso_cubist.onnx";
      "public/models/cyberpunk_neon.onnx";
      "public/models/monet_water_lilies.onnx";
      "public/models/anime_studio_ghibli.onnx" ].
Proof. reflexivity. Qed.

Lemma output_paths_NoDup : NoDup (map output_path styles).
Proof. rewrite output_paths. apply (bool_decide_unpack _). vm_compute. exact I. Qed.

(** A whole run of [main]. *)
Lemma main_run (w : World) :
  fst (main w) = inr tt /\
  stdout (snd (main w))
    = (stdout w ++ map report styles ++ ["Model generation complete!"])%list /\
  forall s : string, In s styles ->
    files (snd (main w)) !! output_path s
    = file_after s (files w !! output_path s).
Proof.
  unfold main, mbind, IO_bind.
  destruct (for_each_main_body_run styles w) as (Hr & Hout & _ & Hown).
  destruct (for_each styles main_body w) as [[e | []] w1]; cbn in Hr, Hout, Hown;
    [discriminate Hr |].
  cbn. split; [reflexivity |]. split.
  - rewrite Hout, <- app_assoc. reflexivity.
  - exact (Hown output_paths_NoDup).
Qed.

Lemma file_after_pipeline (s : string) (old : option (list byte)) (b : list byte) :
  pipeline s = inr b -> file_after s old = Some b.
Proof.
  unfold pipeline, file_after.
  destruct (make_model (build_graph s)) as [e | m]; [discriminate |].
  destruct (infer_shapes m) as [e | m']; [discriminate |].
  destruct (SerializeToString m'); [discriminate |]. congruence.
Qed.

End Runs.

(** ** The generator on the built-in styles *)

Section Generated.
Context {onnx : OnnxLibrary}.


(** C4. For each of the five built-in styles the file name is the style
    lower-cased, with " - " and then every remaining space replaced by
    "_", followed by ".onnx", under public/models; and when the library
    raises nothing for that style, the file at exactly that path holds the
    serialized model after [main]. *)
Theorem C4_builtin_styles_written_at_slug_paths (style : string) (w : World) :
  In style styles ->
  output_path style = "public/models/" +:+ spec_slug style +:+ ".onnx" /\
  In (style, output_path style)
     [ ("Van Gogh - Starry Night", "public/models/van_gogh_starry_night.onnx");
       ("Picasso - Cubist", "public/models/picasso_cubist.onnx");
       ("Cyberpunk Neon", "public/models/cyberpunk_neon.onnx");
       ("Monet - Water Lilies", "public/models/monet_water_lilies.onnx");
       ("Anime Studio Ghibli", "public/models/anime_studio_ghibli.onnx") ] /\
  forall bytes : list byte,
    pipeline style = inr bytes ->
    files (snd (main w)) !! output_path style = Some bytes.
Proof.
  intros Hin. split; [| split].
  - unfold styles in Hin. cbn in Hin.
    repeat (destruct Hin as [<- | Hin]; [reflexivity |]). destruct Hin.
  - unfold styles in Hin. cbn in Hin.
    repeat (destruct Hin as [<- | Hin]; [cbn; tauto |]). destruct Hin.
  - intros bytes Hp.
    destruct (main_run w) as (_ & _ & Hown).
    rewrite (Hown style Hin). apply file_after_pipeline. exact Hp.
Qed.

(** C7. Whatever the library does for each style, [main] itself raises
    nothing and prints, after what was printed before, one line per style
    in the order of the list, "Created ONNX model: <path>" when the
    library raised nothing for it and "Failed to create model for <style>:
    <message>" with the message of the exception otherwise, and then
    "Model generation complete!". A style that failed gets no model
    written: its file is as before, or empty when the serializer raised. *)
Theorem C7_failures_are_caught_per_style (w : World) :
  fst (main w) = inr tt /\
  stdout (snd (main w))
    = (stdout w
       ++ map (fun style =>
                 match pipeline style with
                 | inr _ => "Created ONNX model: " +:+ output_path style
                 | inl e =>
                     "Failed to create model for " +:+ style +:+ ": " +:+ e
                 end) styles
       ++ ["Model generation complete!"])%list /\
  Forall (fun style =>
            match pipeline style with
            | inr bytes =>
                files (snd (main w)) !! output_path style = Some bytes
            | inl _ =>
                files (snd (main w)) !! output_path style
                  = files w !! output_path style \/
                files (snd (main w)) !! output_path style = Some []
            end) styles.
Proof.
  destruct (main_run w) as (Hr & Hout & Hown).
  split; [exact Hr |]. split; [exact Hout |].
  apply Forall_forall. intros style Hin. rewrite list_elem_of_In in Hin.
  rewrite (Hown style Hin). unfold pipeline, file_after.
  destruct (make_model (build_graph style)) as [e | m]; [left; reflexivity |].
  destruct (infer_shapes m) as [e | m']; [left; reflexivity |].
  destruct (SerializeToString m'); [right |]; reflexivity.
Qed.

End Generated.



Lemma C4_builtin_styles_written_at_slug_paths_witness :
  In "Cyberpunk Neon" styles /\
  pipeline (onnx := name_only_onnx) "Cyberpunk Neon"
    = inr (list_byte_of_string "Cyberpunk Neon_style_transfer") /\
  output_path "Cyberpunk Neon" = "public/models/cyberpunk_neon.onnx" /\
  files (snd (main (onnx := name_only_onnx) empty_world))
    !! "public/models/cyberpunk_neon.onnx"
    = Some (list_byte_of_string "Cyberpunk Neon_style_transfer").
Proof.
  assert (Hin : In "Cyberpunk Neon" styles)
    by (right; right; left; reflexivity).
  assert (Hp : pipeline (onnx := name_only_onnx) "Cyberpunk Neon"
               = inr (list_byte_of_string "Cyberpunk Neon_style_transfer"))
    by reflexivity.
  split; [exact Hin |]. split; [exact Hp |]. split; [reflexivity |].
  destruct (C4_builtin_styles_written_at_slug_paths (onnx := name_only_onnx)
              "Cyberpunk Neon" empty_world Hin) as (_ & _ & Hfile).
  exact (Hfile _ Hp).
Defined.

(** * Further properties of the code *)

(** ** Strings *)

Lemma string_app_cons (x : ascii) (a b : string) :
  String x a +:+ b = String x (a +:+ b).
Proof. reflexivity. Qed.

Lemma string_app_assoc (a b c : string) : (a +:+ b) +:+ c = a +:+ b +:+ c.
Proof.
  induction a as [|x a IH]; [reflexivity |].
  rewrite !string_app_cons. f_equal. exact IH.
Qed.

Lemma contains_extend (k s pre post : string) :
  contains k s = true -> contains k (pre +:+ s +:+ post) = true.
Proof.
  rewrite !contains_spec. intros [a [b ->]].
  exists (pre +:+ a), (b +:+ post).
  rewrite !string_app_assoc. reflexivity.
Qed.

Lemma contains_char_cons (c a : ascii) (r : string) :
  contains (String c "") (String a r)
  = Ascii.eqb c a || contains (String c "") r.
Proof. cbn [contains startswith]. rewrite andb_true_r. reflexivity. Qed.

Lemma lower_ascii_idem (c : ascii) : lower_ascii (lower_ascii c) = lower_ascii c.
Proof. destruct c as [[] [] [] [] [] [] [] []]; reflexivity. Qed.

Lemma lower_ascii_space (c : ascii) :
  Ascii.eqb " " (lower_ascii c) = Ascii.eqb " " c.
Proof. destruct c as [[] [] [] [] [] [] [] []]; reflexivity. Qed.

Lemma lower_ascii_slash (c : ascii) :
  Ascii.eqb "/" (lower_ascii c) = Ascii.eqb "/" c.
Proof. destruct c as [[] [] [] [] [] [] [] []]; reflexivity. Qed.

Lemma lower_idem (s : string) : lower (lower s) = lower s.
Proof.
  induction s as [|c r IH]; simpl; [reflexivity |].
  rewrite lower_ascii_idem, IH. reflexivity.
Qed.

Lemma lower_app (a b : string) : lower (a +:+ b) = lower a +:+ lower b.
Proof.
  induction a as [|c a IH]; [reflexivity |].
  rewrite string_app_cons. cbn [lower]. rewrite string_app_cons.
  f_equal. exact IH.
Qed.

Lemma lower_no_space (s : string) :
  contains " " s = false -> contains " " (lower s) = false.
Proof.
  induction s as [|c r IH]; [reflexivity |].
  cbn [lower]. rewrite !contains_char_cons, lower_ascii_space.
  rewrite !orb_false_iff. intros [Hc Hr]. auto.
Qed.

Lemma no_space_app (a b : string) :
  contains " " a = false -> contains " " b = false ->
  contains " " (a +:+ b) = false.
Proof.
  intros Ha Hb. induction a as [|c a IH]; [exact Hb |].
  rewrite string_app_cons. rewrite contains_char_cons in Ha |- *.
  apply orb_false_iff in Ha as [Hc Ha]. rewrite Hc, (IH Ha). reflexivity.
Qed.

(** Replacing the space leaves none behind. *)
Lemma replace_from_no_space (new : string) (k : nat) (s : string) :
  contains " " new = false ->
  contains " " (replace_from " " new k s) = false.
Proof.
  intros Hnew. revert k. induction s as [|c r IH]; intros k; [reflexivity |].
  cbn [replace_from]. destruct k as [|k]; [| apply IH].
  cbn [startswith]. rewrite andb_true_r.
  destruct (Ascii.eqb " " c) eqn:Hc.
  - apply no_space_app; [exact Hnew | apply IH].
  - rewrite contains_char_cons, Hc, IH. reflexivity.
Qed.

(** [replace] changes nothing when [old] does not occur. *)
Lemma replace_absent (old new s : string) :
  contains old s = false -> replace old new s = s.
Proof.
  destruct old as [|o old]; [destruct s; discriminate |].
  unfold replace. induction s as [|c r IH]; [reflexivity |].
  cbn [contains]. rewrite orb_false_iff. intros [Hs Hr].
  cbn [replace_from]. rewrite Hs, (IH Hr). reflexivity.
Qed.

Lemma replace_from_lower (old new : string) (k : nat) (s : string) :
  lower new = new -> lower s = s ->
  lower (replace_from old new k s) = replace_from old new k s.
Proof.
  intros Hnew. revert k. induction s as [|c r IH]; intros k Hs; [reflexivity |].
  cbn [lower] in Hs. injection Hs as Hc Hr.
  cbn [replace_from]. destruct k as [|k]; [| apply IH; exact Hr].
  destruct (startswith old (String c r)).
  - rewrite lower_app, Hnew, (IH _ Hr). reflexivity.
  - cbn [lower]. rewrite Hc, (IH _ Hr). reflexivity.
Qed.

Lemma startswith_slash_lower (s : string) :
  startswith "/" (lower s) = startswith "/" s.
Proof.
  destruct s as [|c r]; [reflexivity |].
  cbn [lower startswith]. rewrite lower_ascii_slash. reflexivity.
Qed.

(** Replacing something that starts with a space by ["_"] neither makes
    nor removes a leading slash. *)
Lemma startswith_slash_replace (old s : string) :
  startswith "/" (replace (String " " old) "_" s) = startswith "/" s.
Proof.
  unfold replace. destruct s as [|c r]; [reflexivity |].
  cbn [replace_from startswith].
  destruct (Ascii.eqb " " c) eqn:Hc; cbn [andb].
  - apply Ascii.eqb_eq in Hc as <-.
    destruct (startswith old r); reflexivity.
  - reflexivity.
Qed.

Lemma startswith_slash_filename (style : string) :
  startswith "/" (filename style) = startswith "/" style.
Proof.
  unfold filename.
  rewrite <- (startswith_slash_lower style).
  rewrite <- (startswith_slash_replace "- " (lower style)).
  rewrite <- (startswith_slash_replace "" (replace " - " "_" (lower style))).
  destruct (replace " " "_" (replace " - " "_" (lower style))); reflexivity.
Qed.

(** X1. The file name of any style holds no space, and so does the
    path. *)
Theorem filename_has_no_space (style : string) :
  contains " " (filename style) = false /\
  contains " " (output_path style) = false.
Proof.
  assert (Hf : contains " " (filename style) = false).
  { unfold filename, replace at 1.
    apply no_space_app; [apply replace_from_no_space |]; reflexivity. }
  split; [exact Hf |].
  unfold output_path, os_path_join.
  destruct (startswith "/" (filename style)); [exact Hf |].
  cbn [models_dir String.eqb endswith_char orb Ascii.eqb].
  change (contains " " ("public/models/" +:+ filename style) = false).
  apply no_space_app; [reflexivity | exact Hf].
Qed.

(** X2. The file name of any style is in lower case: lower-casing it
    again changes nothing. *)
Theorem filename_is_lower_case (style : string) :
  lower (filename style) = filename style.
Proof.
  unfold filename, replace.
  rewrite lower_app. f_equal.
  apply replace_from_lower; [reflexivity |].
  apply replace_from_lower; [reflexivity |].
  apply lower_idem.
Qed.

(** X3. For a style name without a space the file name is just the name
    in lower case followed by ".onnx". *)
Theorem filename_of_spaceless_style (style : string) :
  contains " " style = false ->
  filename style = lower style +:+ ".onnx".
Proof.
  intros Hs. apply lower_no_space in Hs. unfold filename.
  assert (Hd : contains " - " (lower style) = false).
  { destruct (contains " - " (lower style)) eqn:Hd; [| reflexivity].
    apply contains_spec in Hd as [pre [post Hd]].
    assert (contains " " (lower style) = true) as Hc; [| congruence].
    apply contains_spec. exists pre, ("- " +:+ post). exact Hd. }
  rewrite (replace_absent _ _ _ Hd), (replace_absent _ _ _ Hs). reflexivity.
Qed.

(** X4. The path of a style is its file name under public/models, unless
    the style name starts with a slash: then [os.path.join] drops the
    directory and the path is the file name alone, an absolute path. *)
Theorem output_path_leaves_models_dir_only_on_leading_slash (style : string) :
  output_path style
  = (if startswith "/" style then filename style
     else "public/models/" +:+ filename style) /\
  startswith "/" (output_path style) = startswith "/" style.
Proof.
  unfold output_path, os_path_join.
  pose proof (startswith_slash_filename style) as Hf.
  destruct (startswith "/" (filename style)) eqn:He; rewrite <- Hf;
    (split; [reflexivity |]); [exact He | reflexivity].
Qed.

Lemma filename_of_spaceless_style_witness :
  contains " " "Cyberpunk" = false /\
  filename "Cyberpunk" = "cyberpunk.onnx".
Proof.
  assert (Hs : contains " " "Cyberpunk" = false) by reflexivity.
  split; [exact Hs |].
  exact (filename_of_spaceless_style "Cyberpunk" Hs).
Defined.

(** ** The shape of every graph *)

Lemma node_count (s : string) :
  length (node (build_graph s))
  = if existsb (fun k => contains k s) known_names then 5 else 4.
Proof.
  rewrite build_graph_nodes.
  unfold known_names, known_styles, style_branch, append.
  cbn [map fst existsb].
  dispatch s; cbn [orb]; reflexivity.
Qed.

Lemma spec_select_None (s : string) :
  spec_select s = None <-> existsb (fun k => contains k s) known_names = false.
Proof.
  unfold spec_select, known_names, known_styles.
  cbn [List.find map fst existsb].
  dispatch s; cbn [orb]; split; (discriminate || reflexivity).
Qed.

(** X5. Every graph has five nodes when the style name contains a known
    substring and four otherwise; its nodes have pairwise distinct names;
    it starts with normalize and ends with clamp then denormalize. *)
Theorem graph_has_four_or_five_distinct_nodes (style_name : string) :
  length (node (build_graph style_name))
    = (if existsb (fun k => contains k style_name) known_names
       then 5 else 4) /\
  NoDup (map name (node (build_graph style_name))) /\
  exists middle : list NodeProto,
    node (build_graph style_name)
    = (norm_node :: middle ++ [clamp_node; denorm_node])%list.
Proof.
  split; [apply node_count |]. split.
  - pose proof (build_graph_nodes style_name) as Hn.
    unfold style_branch, append in Hn.
    dispatch style_name; cbn zeta in Hn; simpl app in Hn; rewrite Hn;
      apply (bool_decide_unpack _); vm_compute; exact I.
  - exists (style_branch style_name []). apply build_graph_nodes.
Qed.

(** X6. Text added before or after a style name never takes its style
    away: when a name selects one of the five branches, every extension of
    it selects one too, and its graph has five nodes. *)
Theorem extended_name_keeps_a_style_branch (s pre post : string) :
  spec_select s <> None ->
  spec_select (pre +:+ s +:+ post) <> None /\
  length (node (build_graph (pre +:+ s +:+ post))) = 5.
Proof.
  intros Hs.
  assert (He : existsb (fun k => contains k (pre +:+ s +:+ post)) known_names
               = true).
  { rewrite spec_select_None in Hs. apply not_false_is_true in Hs.
    apply existsb_exists in Hs as [k [Hk Hc]].
    apply existsb_exists. exists k. split; [exact Hk |].
    apply contains_extend. exact Hc. }
  split.
  - rewrite spec_select_None, He. discriminate.
  - rewrite node_count, He. reflexivity.
Qed.

Lemma extended_name_keeps_a_style_branch_witness :
  spec_select "Monet" <> None /\
  spec_select ("Claude " +:+ "Monet" +:+ " - Water Lilies") <> None /\
  length (node (build_graph ("Claude " +:+ "Monet" +:+ " - Water Lilies"))) = 5.
Proof.
  assert (Hs : spec_select "Monet" <> None) by discriminate.
  split; [exact Hs |].
  exact (extended_name_keeps_a_style_branch "Monet" "Claude " " - Water Lilies" Hs).
Defined.

(** ** Failures, and what a run leaves alone *)

Section Worlds.
Context {onnx : OnnxLibrary}.

Lemma main_other_files (w : World) (q : string) :
  ~ In q (map output_path styles) ->
  files (snd (main w)) !! q = files w !! q.
Proof.
  intros Hq. unfold main, mbind, IO_bind.
  destruct (for_each_main_body_run styles w) as (Hr & _ & Hother & _).
  destruct (for_each styles main_body w) as [[e | []] w1]; cbn in Hr, Hother;
    [discriminate Hr |].
  cbn. apply Hother. exact Hq.
Qed.

Lemma file_after_idem (s : string) (old : option (list byte)) :
  file_after s (file_after s old) = file_after s old.
Proof.
  unfold file_after.
  destruct (make_model (build_graph s)) as [e | m]; [reflexivity |].
  destruct (infer_shapes m) as [e | m']; [reflexivity |].
  destruct (SerializeToString m'); reflexivity.
Qed.

(** X7. When [make_model] or [infer_shapes] raises, the builder raises the
    same exception and leaves the world as it was: no file is created or
    emptied and nothing is printed. The loop body of [main] then only adds
    the failure line. *)
Theorem early_failure_leaves_world_unchanged
  (s path : string) (w : World) (e : Exception) :
  make_model (build_graph s) = inl e \/
  (exists m, make_model (build_graph s) = inr m /\ infer_shapes m = inl e) ->
  create_style_transfer_model s path w = (inl e, w) /\
  main_body s w
  = (inr tt,
     {| files := files w;
        stdout := stdout w
                  ++ ["Failed to create model for " +:+ s +:+ ": " +:+ e] |}).
Proof.
  intros Hfail.
  assert (Hc : create_style_transfer_model s path w = (inl e, w)
               /\ create_style_transfer_model s (output_path s) w = (inl e, w)).
  { rewrite !create_style_transfer_model_run.
    destruct Hfail as [-> | [m [-> ->]]]; split; reflexivity. }
  destruct Hc as [Hc Hc'].
  split; [exact Hc |].
  unfold main_body, try_except. rewrite Hc'. reflexivity.
Qed.

(** X8. When only [SerializeToString] raises, the file was already opened
    for writing: the builder raises, prints nothing, and leaves an empty
    file at the path, whatever the file held before. *)
Theorem serializer_failure_leaves_empty_file
  (s path : string) (w : World) (m m' : ModelProto) (e : Exception) :
  make_model (build_graph s) = inr m ->
  infer_shapes m = inr m' ->
  SerializeToString m' = inl e ->
  fst (create_style_transfer_model s path w) = inl e /\
  files (snd (create_style_transfer_model s path w)) !! path = Some [] /\
  stdout (snd (create_style_transfer_model s path w)) = stdout w.
Proof.
  intros H1 H2 H3. rewrite create_style_transfer_model_run, H1, H2, H3. cbn.
  split; [reflexivity |]. split; [apply lookup_insert_eq | reflexivity].
Qed.

(** X9. The builder touches no file but the one at its path, and prints
    at most one line after what was printed before. *)
Theorem builder_touches_only_its_path
  (s path q : string) (w : World) :
  q <> path ->
  files (snd (create_style_transfer_model s path w)) !! q = files w !! q /\
  exists out : list string,
    stdout (snd (create_style_transfer_model s path w))
      = (stdout w ++ out)%list /\
    length out <= 1.
Proof.
  intros Hq. rewrite create_style_transfer_model_run.
  destruct (make_model (build_graph s)) as [e | m].
  { cbn. split; [reflexivity |]. exists []. rewrite app_nil_r. split; [reflexivity | cbn; lia]. }
  destruct (infer_shapes m) as [e | m'].
  { cbn. split; [reflexivity |]. exists []. rewrite app_nil_r. split; [reflexivity | cbn; lia]. }
  destruct (SerializeToString m') as [e | b]; cbn.
  - split; [apply lookup_insert_ne; congruence |].
    exists []. rewrite app_nil_r. split; [reflexivity | cbn; lia].
  - split; [apply lookup_insert_ne; congruence |].
    eexists. split; [reflexivity | cbn; lia].
Qed.

(** X10. [main] leaves every file alone whose path is not one of the five
    output paths. *)
Theorem main_touches_only_the_output_paths (w : World) (q : string) :
  ~ In q (map output_path styles) ->
  files (snd (main w)) !! q = files w !! q.
Proof. apply main_other_files. Qed.

(** X11. Running [main] a second time leaves the files exactly as the
    first run left them, and prints the same six lines again. *)
Theorem main_twice_leaves_the_same_files (w : World) :
  files (snd (main (snd (main w)))) = files (snd (main w)) /\
  exists lines : list string,
    length lines = 6 /\
    stdout (snd (main w)) = (stdout w ++ lines)%list /\
    stdout (snd (main (snd (main w)))) = (stdout w ++ lines ++ lines)%list.
Proof.
  split.
  - apply map_eq. intros q.
    destruct (in_dec String.string_dec q (map output_path styles)) as [Hin | Hout].
    + apply in_map_iff in Hin as [s [<- Hs]].
      destruct (main_run (snd (main w))) as (_ & _ & Hown2).
      destruct (main_run w) as (_ & _ & Hown1).
      rewrite (Hown2 s Hs), (Hown1 s Hs). apply file_after_idem.
    + apply main_other_files. exact Hout.
  - exists (map report styles ++ ["Model generation complete!"])%list.
    destruct (main_run (snd (main w))) as (_ & Hout2 & _).
    destruct (main_run w) as (_ & Hout1 & _).
    split; [reflexivity |]. split; [exact Hout1 |].
    rewrite Hout2, Hout1, <- !app_assoc. reflexivity.
Qed.

End Worlds.

Lemma early_failure_leaves_world_unchanged_witness :
  (make_model (OnnxLibrary := picky_onnx) (build_graph "Picasso - Cubist")
     = inl "bad node" \/
   exists m, make_model (OnnxLibrary := picky_onnx)
               (build_graph "Picasso - Cubist") = inr m /\
             infer_shapes m = inl "bad node") /\
  create_style_transfer_model (onnx := picky_onnx) "Picasso - Cubist"
    "public/models/picasso_cubist.onnx" used_world
  = (inl "bad node", used_world).
Proof.
  assert (Hf : make_model (OnnxLibrary := picky_onnx)
                 (build_graph "Picasso - Cubist") = inl "bad node" \/
               exists m, make_model (OnnxLibrary := picky_onnx)
                           (build_graph "Picasso - Cubist") = inr m /\
                         infer_shapes m = inl "bad node").
  { right. exists (build_graph "Picasso - Cubist"). split; reflexivity. }
  split; [exact Hf |].
  exact (proj1 (early_failure_leaves_world_unchanged (onnx := picky_onnx)
                  "Picasso - Cubist" "public/models/picasso_cubist.onnx"
                  used_world "bad node" Hf)).
Defined.

Lemma serializer_failure_leaves_empty_file_witness :
  files used_world !! "public/models/monet_water_lilies.onnx"
    = Some [x01; x02] /\
  SerializeToString (OnnxLibrary := picky_onnx)
    (build_graph "Monet - Water Lilies") = inl "cannot serialize" /\
  files (snd (create_style_transfer_model (onnx := picky_onnx)
                "Monet - Water Lilies"
                "public/models/monet_water_lilies.onnx" used_world))
    !! "public/models/monet_water_lilies.onnx" = Some [].
Proof.
  split; [reflexivity |].
  assert (H3 : SerializeToString (OnnxLibrary := picky_onnx)
                 (build_graph "Monet - Water Lilies") = inl "cannot serialize")
    by reflexivity.
  split; [exact H3 |].
  exact (proj1 (proj2
    (serializer_failure_leaves_empty_file (onnx := picky_onnx)
       "Monet - Water Lilies" "public/models/monet_water_lilies.onnx"
       used_world (build_graph "Monet - Water Lilies")
       (build_graph "Monet - Water Lilies") "cannot serialize"
       eq_refl eq_refl H3))).
Defined.

Lemma builder_touches_only_its_path_witness :
  "notes.txt" <> "public/models/cyberpunk_neon.onnx" /\
  files (snd (create_style_transfer_model (onnx := name_only_onnx)
                "Cyberpunk Neon" "public/models/cyberpunk_neon.onnx"
                used_world)) !! "notes.txt"
  = files used_world !! "notes.txt".
Proof.
  assert (Hq : "notes.txt" <> "public/models/cyberpunk_neon.onnx")
    by discriminate.
  split; [exact Hq |].
  exact (proj1 (builder_touches_only_its_path (onnx := name_only_onnx)
                  "Cyberpunk Neon" "public/models/cyberpunk_neon.onnx"
                  "notes.txt" used_world Hq)).
Defined.

Lemma main_touches_only_the_output_paths_witness :
  ~ In "notes.txt" (map output_path styles) /\
  files (snd (main (onnx := picky_onnx) used_world)) !! "notes.txt"
  = files used_world !! "notes.txt".
Proof.
  assert (Hq : ~ In "notes.txt" (map output_path styles)).
  { rewrite output_paths. cbn. intros H.
    repeat (destruct H as [H | H]; [discriminate H |]). exact H. }
  split; [exact Hq |].
  exact (main_touches_only_the_output_paths (onnx := picky_onnx)
           used_world "notes.txt" Hq).
Defined.

(** ** Lower case against the dispatch *)

Lemma contains_first_char (c : ascii) (k t : string) :
  contains (String c k) t = true -> contains (String c "") t = true.
Proof.
  rewrite !contains_spec. intros [pre [post ->]].
  exists pre, (k +:+ post). reflexivity.
Qed.

(** A character that [lower] changes does not occur in a lower-cased
    string. *)
Lemma changed_char_not_in_lower (c : ascii) (s : string) :
  lower_ascii c <> c -> contains (String c "") (lower s) = false.
Proof.
  intros Hc. induction s as [|a r IH]; [reflexivity |].
  cbn [lower]. rewrite contains_char_cons, IH, orb_false_r.
  destruct (Ascii.eqb_spec c (lower_ascii a)) as [-> | _]; [| reflexivity].
  rewrite lower_ascii_idem in Hc. contradiction.
Qed.

Lemma capitalised_not_in_lower (c : ascii) (k s : string) :
  lower_ascii c <> c -> contains (String c k) (lower s) = false.
Proof.
  intros Hc. destruct (contains (String c k) (lower s)) eqn:Hk; [| reflexivity].
  apply contains_first_char in Hk.
  rewrite (changed_char_not_in_lower c s Hc) in Hk. discriminate.
Qed.

(** X12. The five known substrings start with a capital letter, so a
    lower-cased style name never selects a style branch: its graph is
    always the four-node identity graph. *)
Theorem lower_cased_name_gets_identity (style_name : string) :
  spec_select (lower style_name) = None /\
  node (build_graph (lower style_name))
  = [norm_node; identity_node; clamp_node; denorm_node].
Proof.
  assert (HF : Forall (fun k => contains k (lower style_name) = false)
                 known_names).
  { unfold known_names, known_styles. cbn [map fst].
    repeat constructor; apply capitalised_not_in_lower; discriminate. }
  split.
  - apply spec_select_None. apply not_true_is_false. intros He.
    apply existsb_exists in He as [k [Hk Hc]].
    rewrite Forall_forall in HF. rewrite <- list_elem_of_In in Hk.
    rewrite (HF k Hk) in Hc. discriminate.
  - rewrite build_graph_nodes, (no_match_identity _ HF). reflexivity.
Qed.

(** X13. Deriving a file name is idempotent on its stem: the stem of a
    style, which is its file name without ".onnx", is its own stem, so a
    style and its stem get the same file name. *)
Theorem filename_of_stem_is_the_same (style : string) :
  let stem := replace " " "_" (replace " - " "_" (lower style)) in
  filename style = stem +:+ ".onnx" /\
  replace " " "_" (replace " - " "_" (lower stem)) = stem /\
  filename stem = filename style.
Proof.
  cbn zeta.
  set (stem := replace " " "_" (replace " - " "_" (lower style))).
  assert (Hl : lower stem = stem).
  { unfold stem, replace.
    apply replace_from_lower; [reflexivity |].
    apply replace_from_lower; [reflexivity |]. apply lower_idem. }
  assert (Hs : contains " " stem = false).
  { unfold stem, replace at 1. apply replace_from_no_space. reflexivity. }
  assert (Hd : contains " - " stem = false).
  { destruct (contains " - " stem) eqn:Hd; [| reflexivity].
    apply contains_first_char in Hd. congruence. }
  assert (Hfix : replace " " "_" (replace " - " "_" (lower stem)) = stem).
  { rewrite Hl, (replace_absent _ _ _ Hd), (replace_absent _ _ _ Hs).
    reflexivity. }
  split; [reflexivity |]. split; [exact Hfix |].
  unfold filename at 1. rewrite Hfix. reflexivity.
Qed.
